(** * NeuralChat configuration records and the chat-model base class

    A shallow embedding of [neural_chat/config.py] and
    [neural_chat/models/base_model.py].

    Python objects whose identity matters (the list and dict objects
    held by the configuration records) live in an explicit heap;
    exceptions are values of [exn]; a constructor is a computation in
    the state-and-exception monad [M].  The interpreter is taken in its
    default mode, where [assert] statements are executed. *)

From Stdlib Require Import Floats.
From Stdlib Require Import Ascii String.
From stdpp Require Import base strings list gmap.

Open Scope string_scope.
Open Scope list_scope.

(** ** Exceptions *)

(** An exception raised inside an external collaborator: its class
    name and its message. *)
Record foreign_exn := ForeignExn {
  fe_class : string;
  fe_message : string
}.

Inductive exn :=
  (** [raise ValueError(msg)] *)
  | ValueError (msg : string)
  (** a failed [assert cond, msg] *)
  | AssertionError (msg : string)
  (** a call that leaves required parameters of [callee] without a value *)
  | TypeError_missing (callee : string) (params : list string)
  (** a call that passes more positional arguments than [callee] takes *)
  | TypeError_too_many (callee : string)
  (** instantiation of a class that still has abstract methods *)
  | TypeError_abstract (methods : list string)
  (** unpacking of a value that is no sequence *)
  | TypeError_unpack
  (** unpacking of a sequence of the wrong length *)
  | ValueError_unpack (expected got : nat)
  (** [l[-1]] on an empty list *)
  | IndexError
  (** [o.attr] on an object without that attribute *)
  | AttributeError (attr : string)
  (** an exception that propagates out of a collaborator's code *)
  | Propagated (callee : string) (e : foreign_exn).

Inductive result (A : Type) :=
  | Ok (a : A)
  | Err (e : exn).
Arguments Ok {A} a.
Arguments Err {A} e.

Definition result_bind {A B} (r : result A) (k : A → result B) : result B :=
  match r with
  | Ok a => k a
  | Err e => Err e
  end.

(** ** The heap of mutable containers *)

Inductive obj :=
  | ListObj (items : list string)
  | DictObj (entries : gmap string string).

(** A location is an index into the heap, a list of objects. *)
Abbreviation loc := nat (only parsing).
Abbreviation heap := (list obj) (only parsing).

(** ** Computations: state passing, with exceptions *)

Definition M (S A : Type) : Type := S → result A * S.

Definition ret {S A} (a : A) : M S A := λ s, (Ok a, s).
Definition raise {S A} (e : exn) : M S A := λ s, (Err e, s).
Definition bind {S A B} (m : M S A) (k : A → M S B) : M S B :=
  λ s, match m s with
       | (Ok a, s') => k a s'
       | (Err e, s') => (Err e, s')
       end.
Definition lift {S A} (r : result A) : M S A := λ s, (r, s).

(** Evaluation of a list or dict display: a new object at a new
    location. *)
Definition alloc (o : obj) : M heap loc := λ h, (Ok (length h), h ++ [o]).

(** [l.append(x)] on the list object at [l]. *)
Definition list_append (l : loc) (x : string) : M heap unit :=
  λ h, match h !! l with
       | Some (ListObj items) => (Ok tt, <[l := ListObj (items ++ [x])]> h)
       | _ => (Err (AttributeError "append"), h)
       end.

Declare Scope py_scope.
Delimit Scope py_scope with py.
Notation "x <- m ;; k" := (bind m (λ x, k))
  (at level 100, m at next level, right associativity) : py_scope.
Notation "m ;;; k" := (bind m (λ _, k))
  (at level 100, right associativity) : py_scope.
Open Scope py_scope.

(** ** Built-ins used by the source *)

(** [s.split(sep)] for a one-character separator: the segments between
    the occurrences of [sep]; never empty. *)
Fixpoint str_split (sep : Ascii.ascii) (s : string) : list string :=
  match s with
  | EmptyString => [EmptyString]
  | String c rest =>
      if Ascii.eqb c sep then EmptyString :: str_split sep rest
      else match str_split sep rest with
           | seg :: segs => String c seg :: segs
           | [] => [String c EmptyString]
           end
  end.

(** [l[-1]] *)
Definition index_last {A} (l : list A) : result A :=
  match last l with
  | Some x => Ok x
  | None => Err IndexError
  end.

(** [x in l] for strings *)
Definition str_in (x : string) (l : list string) : bool :=
  bool_decide (x ∈ l).

(** [assert cond, msg] *)
Definition py_assert (cond : bool) (msg : string) : result unit :=
  if cond then Ok tt else Err (AssertionError msg).

(** ** [neural_chat/config.py] *)

(** The two names [config.py] imports from [transformers]:
    [require_version requirement hint] returns [None] when the
    requirement is met and the exception it raises otherwise;
    [TrainingArguments_new] is the outcome of the constructor call
    [TrainingArguments()], an exception or the new object. *)
Record Env (TrainingArguments : Type) := {
  require_version : string → string → option foreign_exn;
  TrainingArguments_new : foreign_exn + TrainingArguments
}.
Arguments require_version {TrainingArguments} e requirement hint.
Arguments TrainingArguments_new {TrainingArguments} e.

Module ModelArguments.

Record t := {
  model_name_or_path : string;
  config_name : option string;
  tokenizer_name : option string;
  cache_dir : option string;
  use_fast_tokenizer : bool;
  model_revision : string;
  use_auth_token : bool
}.

(** The arguments of a call: [None] is a parameter the caller left
    out. *)
Record kwargs := {
  kw_model_name_or_path : option string;
  kw_config_name : option (option string);
  kw_tokenizer_name : option (option string);
  kw_cache_dir : option (option string);
  kw_use_fast_tokenizer : option bool;
  kw_model_revision : option string;
  kw_use_auth_token : option bool
}.

(** [ModelArguments()] *)
Definition no_kwargs : kwargs :=
  {| kw_model_name_or_path := None;
     kw_config_name := None;
     kw_tokenizer_name := None;
     kw_cache_dir := None;
     kw_use_fast_tokenizer := None;
     kw_model_revision := None;
     kw_use_auth_token := None |}.

(** The [__init__] the [dataclass] decorator generates: the field
    [model_name_or_path] has no default, the others have. *)
Definition __init__ (kw : kwargs) : result t :=
  match kw_model_name_or_path kw with
  | None => Err (TypeError_missing "ModelArguments.__init__" ["model_name_or_path"])
  | Some name =>
      Ok {| model_name_or_path := name;
            config_name := default None (kw_config_name kw);
            tokenizer_name := default None (kw_tokenizer_name kw);
            cache_dir := default None (kw_cache_dir kw);
            use_fast_tokenizer := default true (kw_use_fast_tokenizer kw);
            model_revision := default "main" (kw_model_revision kw);
            use_auth_token := default false (kw_use_auth_token kw) |}
  end.

End ModelArguments.

Module DataTrainingArguments.

Record t := {
  dataset_name : option string;
  dataset_config_name : option string;
  train_file : option string;
  validation_file : option string;
  max_train_samples : option Z;
  max_eval_samples : option Z;
  max_source_length : option Z;
  max_target_length : option Z;
  streaming : bool;
  overwrite_cache : bool;
  validation_split_percentage : option Z;
  preprocessing_num_workers : option Z
}.

(** Every field has a default, so a call is given by the values its
    parameters end up with; [defaults] is the call without
    arguments. *)
Definition defaults : t :=
  {| dataset_name := None;
     dataset_config_name := None;
     train_file := None;
     validation_file := None;
     max_train_samples := None;
     max_eval_samples := None;
     max_source_length := Some 512%Z;
     max_target_length := Some 256%Z;
     streaming := false;
     overwrite_cache := false;
     validation_split_percentage := Some 1%Z;
     preprocessing_num_workers := None |}.

Definition missing_source_msg : string :=
  "Need either a dataset name or a training/validation file.".
Definition train_file_msg : string :=
  "`train_file` should be a csv, a json or a txt file.".
Definition validation_file_msg : string :=
  "`validation_file` should be a csv, a json or a txt file.".

(** [path.split(".")[-1]] *)
Definition extension_of (path : string) : result string :=
  index_last (str_split "."%char path).

(** The body of one [if file is not None] block. *)
Definition check_extension (file : option string) (msg : string) : result unit :=
  match file with
  | None => Ok tt
  | Some path =>
      result_bind (extension_of path) (λ extension,
        py_assert (str_in extension ["csv"; "json"; "txt"]) msg)
  end.

Definition __post_init__ {TA} (env : Env TA) (self : t) : result unit :=
  result_bind
    (if streaming self then
       match require_version env "datasets>=2.0.0"
               "The streaming feature requires `datasets>=2.0.0`" with
       | Some e => Err (Propagated "require_version" e)
       | None => Ok tt
       end
     else Ok tt)
    (λ _,
      if bool_decide (dataset_name self = None)
         && bool_decide (train_file self = None)
         && bool_decide (validation_file self = None)
      then Err (ValueError missing_source_msg)
      else
        result_bind (check_extension (train_file self) train_file_msg) (λ _,
          check_extension (validation_file self) validation_file_msg)).

(** The generated [__init__]: store the fields, then validate. *)
Definition __init__ {TA} (env : Env TA) (self : t) : result t :=
  result_bind (__post_init__ env self) (λ _, Ok self).

End DataTrainingArguments.

Module FinetuneArguments.

Record t := {
  lora_rank : Z;
  lora_alpha : Z;
  lora_dropout : float;
  lora_target_modules : loc;
  peft : option string
}.

Record kwargs := {
  kw_lora_rank : option Z;
  kw_lora_alpha : option Z;
  kw_lora_dropout : option float;
  kw_lora_target_modules : option loc;
  kw_peft : option (option string)
}.

(** [FinetuneArguments()] *)
Definition no_kwargs : kwargs :=
  {| kw_lora_rank := None;
     kw_lora_alpha := None;
     kw_lora_dropout := None;
     kw_lora_target_modules := None;
     kw_peft := None |}.

(** The literal [0.1] of the source, as the binary64 number Python
    reads it. *)
Definition lora_dropout_default : float := 0x1.999999999999ap-4%float.

(** [default_factory=lambda: ["q", "v"]] *)
Definition default_factory : M heap loc := alloc (ListObj ["q"; "v"]).

(** The generated [__init__]: the factory runs only when the caller
    passes no [lora_target_modules]. *)
Definition __init__ (kw : kwargs) : M heap t :=
  modules <- match kw_lora_target_modules kw with
             | Some l => ret l
             | None => default_factory
             end ;;
  ret {| lora_rank := default 8%Z (kw_lora_rank kw);
         lora_alpha := default 32%Z (kw_lora_alpha kw);
         lora_dropout := default lora_dropout_default (kw_lora_dropout kw);
         lora_target_modules := modules;
         peft := default (Some "lora") (kw_peft kw) |}.

End FinetuneArguments.

Module FinetuningConfig.

Record t (TA : Type) := {
  model_args : ModelArguments.t;
  data_args : DataTrainingArguments.t;
  training_args : TA;
  finetune_args : FinetuneArguments.t
}.
Arguments model_args {TA} _.
Arguments data_args {TA} _.
Arguments training_args {TA} _.
Arguments finetune_args {TA} _.

Definition __init__ {TA} (model_args : ModelArguments.t)
    (data_args : DataTrainingArguments.t) (training_args : TA)
    (finetune_args : FinetuneArguments.t) : t TA :=
  {| model_args := model_args;
     data_args := data_args;
     training_args := training_args;
     finetune_args := finetune_args |}.

End FinetuningConfig.

Module OptimizationConfig.

Record t := {
  mode : string;
  device : string;
  backend : string;
  approach : string;
  precision : string;
  excluded_precisions : loc;
  op_type_dict : option loc;
  op_name_dict : option loc;
  recipes : loc
}.

Record kwargs := {
  kw_mode : option string;
  kw_device : option string;
  kw_backend : option string;
  kw_approach : option string;
  kw_precision : option string;
  kw_excluded_precisions : option loc;
  kw_op_type_dict : option (option loc);
  kw_op_name_dict : option (option loc);
  kw_recipes : option loc
}.

(** [OptimizationConfig()] *)
Definition no_kwargs : kwargs :=
  {| kw_mode := None;
     kw_device := None;
     kw_backend := None;
     kw_approach := None;
     kw_precision := None;
     kw_excluded_precisions := None;
     kw_op_type_dict := None;
     kw_op_name_dict := None;
     kw_recipes := None |}.

(** The objects the default expressions [[]] and [{}] of the
    parameter list evaluate to. *)
Record parameter_defaults := {
  excluded_precisions_default : loc;
  recipes_default : loc
}.

(** Execution of the [def __init__] statement: the default
    expressions are evaluated once, here. *)
Definition def___init__ : M heap parameter_defaults :=
  l <- alloc (ListObj []) ;;
  d <- alloc (DictObj ∅) ;;
  ret {| excluded_precisions_default := l; recipes_default := d |}.

Definition __init__ (dflt : parameter_defaults) (kw : kwargs) : t :=
  {| mode := default "latency" (kw_mode kw);
     device := default "cpu" (kw_device kw);
     backend := default "ipex" (kw_backend kw);
     approach := default "static" (kw_approach kw);
     precision := default "bf16" (kw_precision kw);
     excluded_precisions :=
       default (excluded_precisions_default dflt) (kw_excluded_precisions kw);
     op_type_dict := default None (kw_op_type_dict kw);
     op_name_dict := default None (kw_op_name_dict kw);
     recipes := default (recipes_default dflt) (kw_recipes kw) |}.

End OptimizationConfig.

Module NeuralChatConfig.

Record t (TA : Type) := {
  model_name_or_path : string;
  inputs : option string;
  device : string;
  backend : string;
  retrieval : bool;
  retrieval_type : option string;
  txt2Image : bool;
  audio_input : bool;
  audio_output : bool;
  server_mode : bool;
  finetune_config : FinetuningConfig.t TA;
  optimize_config : OptimizationConfig.t;
  use_hpu_graphs : bool
}.
Arguments finetune_config {TA} _.
Arguments optimize_config {TA} _.

(** The values the parameters of [__init__] end up with.  For
    [finetune_config] and [optimize_config], [None] is Python's
    [None]; an instance of either class is truthy, as neither class
    defines [__bool__] or [__len__]. *)
Record args (TA : Type) := {
  a_model_name_or_path : string;
  a_inputs : option string;
  a_device : string;
  a_backend : string;
  a_retrieval : bool;
  a_retrieval_type : option string;
  a_txt2Image : bool;
  a_audio_input : bool;
  a_audio_output : bool;
  a_server_mode : bool;
  a_finetune_config : option (FinetuningConfig.t TA);
  a_optimize_config : option OptimizationConfig.t;
  a_use_hpu_graphs : bool
}.
Arguments a_model_name_or_path {TA} _.
Arguments a_inputs {TA} _.
Arguments a_device {TA} _.
Arguments a_backend {TA} _.
Arguments a_retrieval {TA} _.
Arguments a_retrieval_type {TA} _.
Arguments a_txt2Image {TA} _.
Arguments a_audio_input {TA} _.
Arguments a_audio_output {TA} _.
Arguments a_server_mode {TA} _.
Arguments a_finetune_config {TA} _.
Arguments a_optimize_config {TA} _.
Arguments a_use_hpu_graphs {TA} _.

(** [NeuralChatConfig()] *)
Definition defaults {TA} : args TA :=
  {| a_model_name_or_path := "meta-llama/Llama-2-70b-hf";
     a_inputs := None;
     a_device := "auto";
     a_backend := "auto";
     a_retrieval := false;
     a_retrieval_type := None;
     a_txt2Image := false;
     a_audio_input := false;
     a_audio_output := false;
     a_server_mode := true;
     a_finetune_config := None;
     a_optimize_config := None;
     a_use_hpu_graphs := false |}.

(** An exception of a collaborator propagates. *)
Definition foreign {A} (callee : string) (r : foreign_exn + A) : result A :=
  match r with
  | inl e => Err (Propagated callee e)
  | inr a => Ok a
  end.

(** The [else] operand of the conditional for [finetune_config]; the
    keyword arguments are evaluated in the order they are written. *)
Definition synthesize_finetune_config {TA} (env : Env TA)
    : M heap (FinetuningConfig.t TA) :=
  model_args <- lift (ModelArguments.__init__ ModelArguments.no_kwargs) ;;
  data_args <- lift (DataTrainingArguments.__init__ env DataTrainingArguments.defaults) ;;
  training_args <- lift (foreign "TrainingArguments" (TrainingArguments_new env)) ;;
  finetune_args <- FinetuneArguments.__init__ FinetuneArguments.no_kwargs ;;
  ret (FinetuningConfig.__init__ model_args data_args training_args finetune_args).

Definition __init__ {TA} (env : Env TA)
    (dflt : OptimizationConfig.parameter_defaults) (a : args TA) : M heap (t TA) :=
  fc <- match a_finetune_config a with
        | Some fc => ret fc
        | None => synthesize_finetune_config env
        end ;;
  oc <- match a_optimize_config a with
        | Some oc => ret oc
        | None => ret (OptimizationConfig.__init__ dflt OptimizationConfig.no_kwargs)
        end ;;
  ret {| model_name_or_path := a_model_name_or_path a;
         inputs := a_inputs a;
         device := a_device a;
         backend := a_backend a;
         retrieval := a_retrieval a;
         retrieval_type := a_retrieval_type a;
         txt2Image := a_txt2Image a;
         audio_input := a_audio_input a;
         audio_output := a_audio_output a;
         server_mode := a_server_mode a;
         finetune_config := fc;
         optimize_config := oc;
         use_hpu_graphs := a_use_hpu_graphs a |}.

End NeuralChatConfig.

(** ** [neural_chat/models/base_model.py] *)

Module BaseModel.

(** The values a method of a backend takes and returns: [None], an
    object that is no sequence (a model, a tokenizer, a parameter
    dict), or a tuple. *)
#[warnings="-register-all"] Inductive value :=
  | VNone
  | VHandle (id : nat)
  | VTuple (items : list value).

Record parameter := {
  par_name : string;
  par_default : option value
}.

(** A method as a [def] gives it: its name, its parameters after
    [self], and what its body does with their values. *)
Record method := {
  m_name : string;
  m_params : list parameter;
  m_body : list value → result value
}.

(** One execution of a method body, with the values of its
    parameters. *)
Record call_event := {
  ev_method : string;
  ev_args : list value
}.
Definition trace := list call_event.

Definition required (params : list parameter) : list string :=
  par_name <$> filter (λ p, par_default p = None) params.

(** Binding of positional arguments to parameters. *)
Fixpoint bind_parameters (callee : string) (params : list parameter)
    (args : list value) : result (list value) :=
  match params, args with
  | [], [] => Ok []
  | [], _ :: _ => Err (TypeError_too_many callee)
  | _ :: params', a :: args' =>
      result_bind (bind_parameters callee params' args') (λ vs, Ok (a :: vs))
  | _ :: _, [] =>
      match required params with
      | [] => Ok (omap par_default params)
      | names => Err (TypeError_missing callee names)
      end
  end.

(** Entry into the body of a method. *)
Definition enter (name : string) (vs : list value) : M trace unit :=
  λ tr, (Ok tt, tr ++ [{| ev_method := name; ev_args := vs |}]).

(** A call [self.m(a1, ..., an)]: the body runs only once the
    arguments are bound. *)
Definition call (m : method) (args : list value) : M trace value :=
  vs <- lift (bind_parameters (m_name m) (m_params m) args) ;;
  enter (m_name m) vs ;;;
  lift (m_body m vs).

(** [a, b = v] *)
Definition unpack2 (v : value) : result (value * value) :=
  match v with
  | VTuple [a; b] => Ok (a, b)
  | VTuple items => Err (ValueError_unpack 2 (length items))
  | _ => Err TypeError_unpack
  end.

(** A subclass, by the abstract methods it overrides. *)
Record subclass := {
  init_model : option method;
  predict_stream : option method;
  predict : option method
}.

(** The three [@abstractmethod] definitions of the base class. *)
Definition abstract_init_model : method :=
  {| m_name := "init_model";
     m_params := [{| par_name := "config"; par_default := None |}];
     m_body := λ _, Ok VNone |}.
Definition abstract_predict_stream : method :=
  {| m_name := "predict_stream";
     m_params := [{| par_name := "params"; par_default := None |}];
     m_body := λ _, Ok VNone |}.
Definition abstract_predict : method :=
  {| m_name := "predict";
     m_params := [{| par_name := "params"; par_default := None |}];
     m_body := λ _, Ok VNone |}.

(** The abstract methods a subclass leaves abstract. *)
Definition still_abstract (name : string) (override : option method) : list string :=
  match override with
  | Some _ => []
  | None => [name]
  end.
Definition abstract_methods (c : subclass) : list string :=
  still_abstract "init_model" (init_model c)
  ++ still_abstract "predict" (predict c)
  ++ still_abstract "predict_stream" (predict_stream c).

Record t := {
  class : subclass;
  model : value;
  tokenizer : value
}.

Definition __init__ (c : subclass) : M trace t :=
  r <- call (default abstract_init_model (init_model c)) [] ;;
  p <- lift (unpack2 r) ;;
  ret {| class := c; model := p.1; tokenizer := p.2 |}.

(** Instantiation [C()] of a subclass [C]: a class with abstract
    methods left is refused, then the inherited [__init__] runs. *)
Definition new (c : subclass) : M trace t :=
  match abstract_methods c with
  | [] => __init__ c
  | names => raise (TypeError_abstract names)
  end.

Definition match_ (self : t) (model_path : string) : bool := true.

(** [get_conv_template] is imported from [fastchat.conversation]: the
    outcome of a lookup by name in its registry of templates. *)
Definition get_default_conv_template {Conversation}
    (get_conv_template : string → foreign_exn + Conversation)
    (self : t) (model_path : string) : foreign_exn + Conversation :=
  get_conv_template "one_shot".

End BaseModel.

(** ** Notions the properties are stated with *)

(** [c] does not occur in [s]. *)
Fixpoint char_free (c : Ascii.ascii) (s : string) : bool :=
  match s with
  | EmptyString => true
  | String a rest => negb (Ascii.eqb a c) && char_free c rest
  end.

(** The extension of a path, in words: the text after its last dot, or
    the whole path when it has no dot. *)
Definition has_extension (path e : string) : Prop :=
  char_free "." e = true ∧ (path = e ∨ ∃ stem, path = stem +:+ String "." e).

Definition recognized_extensions : list string := ["csv"; "json"; "txt"].

(** The segments of a split, put together again. *)
Fixpoint str_join (sep : Ascii.ascii) (segs : list string) : string :=
  match segs with
  | [] => EmptyString
  | [seg] => seg
  | seg :: segs' => seg +:+ String sep (str_join sep segs')
  end.

(** A float in the half-open interval from 0 to 1. *)
Definition in_unit_interval (x : float) : bool :=
  (PrimFloat.leb 0 x && PrimFloat.ltb x 1)%bool.

(** Two environments to run the constructors in: one where the
    installed [datasets] meets every requirement, one where [datasets]
    1.18.0 is installed, so that the requirement ["datasets>=2.0.0"] is
    not met. *)
Definition env_datasets_recent : Env unit :=
  {| require_version := λ _ _, None;
     TrainingArguments_new := inr tt |}.

Definition datasets_too_old (requirement hint : string) : foreign_exn :=
  ForeignExn "ImportError"
    (requirement +:+ " is required for a normal functioning of this module, but found datasets==1.18.0. " +:+ hint).

Definition env_datasets_1_18 : Env unit :=
  {| require_version := λ requirement hint, Some (datasets_too_old requirement hint);
     TrainingArguments_new := inr tt |}.

Definition streaming_requirement : string := "datasets>=2.0.0".
Definition streaming_hint : string :=
  "The streaming feature requires `datasets>=2.0.0`".

(** The version requirement does not stop the construction: streaming
    is off, or the requirement is met. *)
Definition requirement_passes {TA} (env : Env TA) (self : DataTrainingArguments.t) : Prop :=
  DataTrainingArguments.streaming self = false
  ∨ require_version env streaming_requirement streaming_hint = None.

(** A data source is given. *)
Definition has_source (self : DataTrainingArguments.t) : Prop :=
  DataTrainingArguments.dataset_name self ≠ None
  ∨ DataTrainingArguments.train_file self ≠ None
  ∨ DataTrainingArguments.validation_file self ≠ None.

(** A file that is given has a recognized extension. *)
Definition recognized (file : option string) : Prop :=
  ∀ path, file = Some path →
    ∃ e, has_extension path e ∧ e ∈ recognized_extensions.

(** A file is given and its extension is not a recognized one. *)
Definition unrecognized (file : option string) : Prop :=
  ∃ path e, file = Some path ∧ has_extension path e ∧ e ∉ recognized_extensions.

(** A subclass whose [init_model] has the signature the base class
    declares, [init_model(self, config)], and that implements the two
    prediction methods. *)
Definition declared_subclass (init_body predict_body stream_body : list BaseModel.value → result BaseModel.value)
    : BaseModel.subclass :=
  {| BaseModel.init_model :=
       Some {| BaseModel.m_name := "init_model";
               BaseModel.m_params := [{| BaseModel.par_name := "config";
                                         BaseModel.par_default := None |}];
               BaseModel.m_body := init_body |};
     BaseModel.predict_stream :=
       Some {| BaseModel.m_name := "predict_stream";
               BaseModel.m_params := [{| BaseModel.par_name := "params";
                                         BaseModel.par_default := None |}];
               BaseModel.m_body := stream_body |};
     BaseModel.predict :=
       Some {| BaseModel.m_name := "predict";
               BaseModel.m_params := [{| BaseModel.par_name := "params";
                                         BaseModel.par_default := None |}];
               BaseModel.m_body := predict_body |} |}.

(** Sample calls of [DataTrainingArguments]: the parameters that are
    not named keep their defaults. *)
Definition with_files (train_file validation_file : option string)
    (streaming : bool) : DataTrainingArguments.t :=
  {| DataTrainingArguments.dataset_name := None;
     DataTrainingArguments.dataset_config_name := None;
     DataTrainingArguments.train_file := train_file;
     DataTrainingArguments.validation_file := validation_file;
     DataTrainingArguments.max_train_samples := None;
     DataTrainingArguments.max_eval_samples := None;
     DataTrainingArguments.max_source_length := Some 512%Z;
     DataTrainingArguments.max_target_length := Some 256%Z;
     DataTrainingArguments.streaming := streaming;
     DataTrainingArguments.overwrite_cache := false;
     DataTrainingArguments.validation_split_percentage := Some 1%Z;
     DataTrainingArguments.preprocessing_num_workers := None |}.

(** A call of [FinetuneArguments] that passes [lora_dropout] only. *)
Definition with_lora_dropout (x : float) : FinetuneArguments.kwargs :=
  {| FinetuneArguments.kw_lora_rank := None;
     FinetuneArguments.kw_lora_alpha := None;
     FinetuneArguments.kw_lora_dropout := Some x;
     FinetuneArguments.kw_lora_target_modules := None;
     FinetuneArguments.kw_peft := None |}.

(** The heap once [config.py] is imported, and the default objects of
    [OptimizationConfig.__init__] in it. *)
Definition imported_heap : heap := [ListObj []; DictObj ∅].
Definition imported_defaults : OptimizationConfig.parameter_defaults :=
  {| OptimizationConfig.excluded_precisions_default := 0;
     OptimizationConfig.recipes_default := 1 |}.

(** A subclass whose [init_model] can be called without an argument,
    [init_model(self, config=None)], and returns a pair. *)
Definition lenient_subclass (m t : BaseModel.value) : BaseModel.subclass :=
  {| BaseModel.init_model :=
       Some {| BaseModel.m_name := "init_model";
               BaseModel.m_params := [{| BaseModel.par_name := "config";
                                         BaseModel.par_default := Some BaseModel.VNone |}];
               BaseModel.m_body := λ _, Ok (BaseModel.VTuple [m; t]) |};
     BaseModel.predict_stream :=
       Some {| BaseModel.m_name := "predict_stream";
               BaseModel.m_params := [{| BaseModel.par_name := "params";
                                         BaseModel.par_default := None |}];
               BaseModel.m_body := λ _, Ok BaseModel.VNone |};
     BaseModel.predict :=
       Some {| BaseModel.m_name := "predict";
               BaseModel.m_params := [{| BaseModel.par_name := "params";
                                         BaseModel.par_default := None |}];
               BaseModel.m_body := λ _, Ok BaseModel.VNone |} |}.

(** A call of [FinetuneArguments] that passes its own list of target
    modules. *)
Definition with_target_modules (l : loc) : FinetuneArguments.kwargs :=
  {| FinetuneArguments.kw_lora_rank := None;
     FinetuneArguments.kw_lora_alpha := None;
     FinetuneArguments.kw_lora_dropout := None;
     FinetuneArguments.kw_lora_target_modules := Some l;
     FinetuneArguments.kw_peft := None |}.

(** A call of [OptimizationConfig] that passes [mode] only. *)
Definition with_mode (mode : string) : OptimizationConfig.kwargs :=
  {| OptimizationConfig.kw_mode := Some mode;
     OptimizationConfig.kw_device := None;
     OptimizationConfig.kw_backend := None;
     OptimizationConfig.kw_approach := None;
     OptimizationConfig.kw_precision := None;
     OptimizationConfig.kw_excluded_precisions := None;
     OptimizationConfig.kw_op_type_dict := None;
     OptimizationConfig.kw_op_name_dict := None;
     OptimizationConfig.kw_recipes := None |}.

(** A [FinetuningConfig] a caller builds by hand, its target modules
    at location [l]. *)
Definition sample_finetune_config (l : loc) : FinetuningConfig.t unit :=
  FinetuningConfig.__init__
    {| ModelArguments.model_name_or_path := "meta-llama/Llama-2-7b-hf";
       ModelArguments.config_name := None;
       ModelArguments.tokenizer_name := None;
       ModelArguments.cache_dir := None;
       ModelArguments.use_fast_tokenizer := true;
       ModelArguments.model_revision := "main";
       ModelArguments.use_auth_token := false |}
    (with_files (Some "train.json") None false)
    tt
    {| FinetuneArguments.lora_rank := 8;
       FinetuneArguments.lora_alpha := 32;
       FinetuneArguments.lora_dropout := FinetuneArguments.lora_dropout_default;
       FinetuneArguments.lora_target_modules := l;
       FinetuneArguments.peft := Some "lora" |}.

(** A call of [NeuralChatConfig] that passes [device] and
    [finetune_config]. *)
Definition with_finetune_config (device : string) (fc : FinetuningConfig.t unit)
    : NeuralChatConfig.args unit :=
  {| NeuralChatConfig.a_model_name_or_path := "meta-llama/Llama-2-70b-hf";
     NeuralChatConfig.a_inputs := None;
     NeuralChatConfig.a_device := device;
     NeuralChatConfig.a_backend := "auto";
     NeuralChatConfig.a_retrieval := false;
     NeuralChatConfig.a_retrieval_type := None;
     NeuralChatConfig.a_txt2Image := false;
     NeuralChatConfig.a_audio_input := false;
     NeuralChatConfig.a_audio_output := false;
     NeuralChatConfig.a_server_mode := true;
     NeuralChatConfig.a_finetune_config := Some fc;
     NeuralChatConfig.a_optimize_config := None;
     NeuralChatConfig.a_use_hpu_graphs := false |}.

(** A subclass whose [init_model(self)] takes no argument and has the
    given outcome. *)
Definition nullary_subclass (outcome : result BaseModel.value) : BaseModel.subclass :=
  {| BaseModel.init_model :=
       Some {| BaseModel.m_name := "init_model";
               BaseModel.m_params := [];
               BaseModel.m_body := λ _, outcome |};
     BaseModel.predict_stream :=
       Some {| BaseModel.m_name := "predict_stream";
               BaseModel.m_params := [{| BaseModel.par_name := "params";
                                         BaseModel.par_default := None |}];
               BaseModel.m_body := λ _, Ok BaseModel.VNone |};
     BaseModel.predict :=
       Some {| BaseModel.m_name := "predict";
               BaseModel.m_params := [{| BaseModel.par_name := "params";
                                         BaseModel.par_default := None |}];
               BaseModel.m_body := λ _, Ok BaseModel.VNone |} |}.

(** The event of a call of [m] without arguments, its parameters at
    their defaults. *)
Definition default_call_event (m : BaseModel.method) : BaseModel.call_event :=
  {| BaseModel.ev_method := BaseModel.m_name m;
     BaseModel.ev_args := omap BaseModel.par_default (BaseModel.m_params m) |}.

(** * Properties *)

(** ** Splitting a path at its dots *)

Lemma str_app_cons a s t : String a s +:+ t = String a (s +:+ t).
Proof. reflexivity. Qed.

Lemma str_app_sep_assoc s sep j t :
  (s +:+ String sep j) +:+ t = s +:+ String sep (j +:+ t).
Proof.
  induction s as [|a s IH]; [done|].
  by rewrite !str_app_cons, IH.
Qed.

Lemma str_split_nonempty sep s : str_split sep s ≠ [].
Proof.
  destruct s as [|c rest]; simpl; [done|].
  destruct (Ascii.eqb c sep); [done|].
  by destruct (str_split sep rest).
Qed.

Lemma str_join_cons sep seg segs :
  segs ≠ [] → str_join sep (seg :: segs) = seg +:+ String sep (str_join sep segs).
Proof. by destruct segs. Qed.

(** Joining the segments of a split gives the string back. *)
Lemma str_join_split sep s : str_join sep (str_split sep s) = s.
Proof.
  induction s as [|c rest IH]; [done|].
  simpl. destruct (Ascii.eqb_spec c sep) as [->|Hne].
  - rewrite str_join_cons by apply str_split_nonempty.
    simpl. by rewrite IH.
  - pose proof (str_split_nonempty sep rest) as Hrest.
    destruct (str_split sep rest) as [|seg segs]; [done|].
    destruct segs as [|seg' segs].
    + simpl in *. by rewrite IH.
    + rewrite str_join_cons by done. rewrite str_join_cons in IH by done.
      by rewrite <- IH.
Qed.

(** No segment of a split holds the separator. *)
Lemma str_split_char_free sep s :
  Forall (λ seg, char_free sep seg = true) (str_split sep s).
Proof.
  induction s as [|c rest IH]; simpl.
  - by constructor.
  - destruct (Ascii.eqb c sep) eqn:Hc.
    + by constructor.
    + pose proof (str_split_nonempty sep rest) as Hrest.
      destruct (str_split sep rest) as [|seg segs]; [done|].
      inversion IH as [|? ? Hseg Hsegs]; subst.
      constructor; [|done]. simpl. by rewrite Hc, Hseg.
Qed.

Lemma str_join_snoc sep segs e :
  segs ≠ [] → str_join sep (segs ++ [e]) = str_join sep segs +:+ String sep e.
Proof.
  induction segs as [|seg segs IH]; [done|]. intros _.
  destruct segs as [|seg' segs]; [done|].
  change ((seg :: seg' :: segs) ++ [e]) with (seg :: (seg' :: segs) ++ [e]).
  rewrite str_join_cons by done. rewrite IH by done.
  rewrite (str_join_cons sep seg (seg' :: segs)) by done.
  by rewrite str_app_sep_assoc.
Qed.

(** A string without the separator is its own only segment. *)
Lemma str_split_free sep s : char_free sep s = true → str_split sep s = [s].
Proof.
  induction s as [|c rest IH]; simpl; [done|].
  intros [Hc Hrest]%andb_prop.
  apply negb_true_iff in Hc. rewrite Hc, IH by done. done.
Qed.

(** The split of [stem.e], for a dot-free [e], ends with [e]. *)
Lemma str_split_snoc sep stem e :
  char_free sep e = true →
  str_split sep (stem +:+ String sep e) = str_split sep stem ++ [e].
Proof.
  intros He. induction stem as [|c rest IH].
  - change (EmptyString +:+ String sep e) with (String sep e).
    simpl. by rewrite Ascii.eqb_refl, str_split_free.
  - rewrite str_app_cons. simpl.
    destruct (Ascii.eqb c sep); rewrite IH; [done|].
    pose proof (str_split_nonempty sep rest) as Hrest.
    by destruct (str_split sep rest).
Qed.

(** What the source computes as the extension is the extension in the
    sense of [has_extension]. *)
Lemma extension_of_spec path e :
  DataTrainingArguments.extension_of path = Ok e ↔ has_extension path e.
Proof.
  unfold DataTrainingArguments.extension_of, index_last, has_extension. split.
  - destruct (last (str_split "." path)) as [x|] eqn:Hlast; [|done].
    intros [= ->].
    apply last_Some in Hlast as [segs Hsegs].
    pose proof (str_split_char_free "." path) as Hfree.
    pose proof (str_join_split "." path) as Hjoin.
    rewrite Hsegs in Hfree, Hjoin.
    apply Forall_app in Hfree as [_ He]. inversion He; subst.
    split; [done|].
    destruct segs as [|seg segs]; [by left|right].
    exists (str_join "." (seg :: segs)).
    by rewrite str_join_snoc.
  - intros [He [->|[stem ->]]].
    + by rewrite str_split_free.
    + rewrite str_split_snoc by done. by rewrite last_snoc.
Qed.

Lemma extension_of_total path : ∃ e, DataTrainingArguments.extension_of path = Ok e.
Proof.
  unfold DataTrainingArguments.extension_of, index_last.
  pose proof (str_split_nonempty "." path) as Hne.
  destruct (last (str_split "." path)) eqn:Hlast; [by eexists|].
  by apply last_None in Hlast.
Qed.

Lemma has_extension_unique path e1 e2 :
  has_extension path e1 → has_extension path e2 → e1 = e2.
Proof. rewrite <- !extension_of_spec. congruence. Qed.

(** [str_split] on sample strings, as [str.split] answers. *)
Example split_three : str_split "." "a.b.c" = ["a"; "b"; "c"].
Proof. reflexivity. Qed.

Example split_empty : str_split "." "" = [""].
Proof. reflexivity. Qed.

Example split_trailing_dot : str_split "." "data." = ["data"; ""].
Proof. reflexivity. Qed.

Example split_leading_dot : str_split "." ".hidden" = [""; "hidden"].
Proof. reflexivity. Qed.

Example extension_of_archive :
  DataTrainingArguments.extension_of "corpus/archive.tar.gz" = Ok "gz".
Proof. reflexivity. Qed.

Example extension_of_dotless : DataTrainingArguments.extension_of "csv" = Ok "csv".
Proof. reflexivity. Qed.

(** ** Validation of [DataTrainingArguments] *)

Section Validation.
Context {TA : Type} (env : Env TA).
Import DataTrainingArguments.

Lemma check_extension_recognized file msg :
  recognized file → check_extension file msg = Ok tt.
Proof.
  intros Hrec. destruct file as [path|]; [|done].
  destruct (Hrec path eq_refl) as (e & He & Hin).
  apply extension_of_spec in He. simpl. rewrite He. simpl.
  unfold str_in. by rewrite bool_decide_eq_true_2.
Qed.

Lemma check_extension_unrecognized file msg :
  unrecognized file → check_extension file msg = Err (AssertionError msg).
Proof.
  intros (path & e & -> & He & Hout).
  apply extension_of_spec in He. simpl. rewrite He. simpl.
  unfold str_in. by rewrite bool_decide_eq_false_2.
Qed.

(** The extension check has two outcomes only. *)
Lemma check_extension_cases file msg :
  check_extension file msg = Ok tt
  ∨ check_extension file msg = Err (AssertionError msg).
Proof.
  destruct file as [path|]; [|by left].
  destruct (extension_of_total path) as [e He]. simpl. rewrite He. simpl.
  destruct (str_in e ["csv"; "json"; "txt"]); [by left | by right].
Qed.

(** With the requirement met or not asked for, [__post_init__] is the
    data-source check followed by the two extension checks. *)
Lemma post_init_after_requirement self :
  requirement_passes env self →
  __post_init__ env self =
    if bool_decide (dataset_name self = None)
       && bool_decide (train_file self = None)
       && bool_decide (validation_file self = None)
    then Err (ValueError missing_source_msg)
    else result_bind (check_extension (train_file self) train_file_msg) (λ _,
           check_extension (validation_file self) validation_file_msg).
Proof.
  unfold requirement_passes, streaming_requirement, streaming_hint, __post_init__.
  intros [-> | ->]; [done|]. by destruct (streaming self).
Qed.

(** With the requirement asked for and not met, [__post_init__] stops
    at the exception [require_version] raises. *)
Lemma post_init_requirement_fails self e :
  streaming self = true →
  require_version env streaming_requirement streaming_hint = Some e →
  __post_init__ env self = Err (Propagated "require_version" e).
Proof.
  unfold streaming_requirement, streaming_hint, __post_init__.
  by intros -> ->.
Qed.

Lemma source_test_false self :
  has_source self →
  bool_decide (dataset_name self = None)
  && bool_decide (train_file self = None)
  && bool_decide (validation_file self = None) = false.
Proof.
  intros [H | [H | H]]; rewrite !andb_false_iff;
    [left; left | left; right | right]; by apply bool_decide_eq_false_2.
Qed.

Lemma unrecognized_given file : unrecognized file → file ≠ None.
Proof. by intros (path & e & -> & _). Qed.

End Validation.

(** C3. A [DataTrainingArguments] construction in which [dataset_name],
    [train_file] and [validation_file] are all unset, and in which
    streaming is off or the [datasets] requirement is met, fails with
    the [ValueError] that asks for a data source. *)
Theorem missing_source_rejected {TA} (env : Env TA) (self : DataTrainingArguments.t) :
  DataTrainingArguments.dataset_name self = None →
  DataTrainingArguments.train_file self = None →
  DataTrainingArguments.validation_file self = None →
  requirement_passes env self →
  DataTrainingArguments.__init__ env self
  = Err (ValueError DataTrainingArguments.missing_source_msg).
Proof.
  intros Hd Ht Hv Hpass. unfold DataTrainingArguments.__init__.
  rewrite (post_init_after_requirement env self Hpass), Hd, Ht, Hv. reflexivity.
Qed.

Lemma missing_source_rejected_witness :
  requirement_passes env_datasets_1_18 DataTrainingArguments.defaults
  ∧ DataTrainingArguments.__init__ env_datasets_1_18 DataTrainingArguments.defaults
    = Err (ValueError "Need either a dataset name or a training/validation file.").
Proof.
  assert (Hpass : requirement_passes env_datasets_1_18 DataTrainingArguments.defaults)
    by (left; reflexivity).
  split; [exact Hpass|].
  exact (missing_source_rejected env_datasets_1_18 DataTrainingArguments.defaults
           eq_refl eq_refl eq_refl Hpass).
Defined.

(** C4, as the code has it.  A construction in which [train_file] or
    [validation_file] is given with an extension outside csv, json and
    txt, and in which streaming is off or the [datasets] requirement is
    met, fails with an [AssertionError]; and a construction whose given
    files all have an extension among the three never fails with an
    [AssertionError].  The extension of a path is the text after its
    last dot, the whole path when it has none. *)
Theorem extension_check {TA} (env : Env TA) (self : DataTrainingArguments.t) :
  (requirement_passes env self →
   unrecognized (DataTrainingArguments.train_file self)
   ∨ unrecognized (DataTrainingArguments.validation_file self) →
   ∃ msg, DataTrainingArguments.__init__ env self = Err (AssertionError msg))
  ∧ (recognized (DataTrainingArguments.train_file self) →
     recognized (DataTrainingArguments.validation_file self) →
     ∀ msg, DataTrainingArguments.__init__ env self ≠ Err (AssertionError msg)).
Proof.
  split.
  - intros Hpass Hbad. unfold DataTrainingArguments.__init__.
    rewrite (post_init_after_requirement env self Hpass).
    assert (has_source self) as Hsrc.
    { destruct Hbad as [H|H]; apply unrecognized_given in H;
        [right; left | right; right]; exact H. }
    rewrite (source_test_false self Hsrc).
    destruct Hbad as [Htrain|Hval].
    + exists DataTrainingArguments.train_file_msg.
      by rewrite (check_extension_unrecognized _ _ Htrain).
    + destruct (check_extension_cases (DataTrainingArguments.train_file self)
                  DataTrainingArguments.train_file_msg) as [-> | ->].
      * exists DataTrainingArguments.validation_file_msg.
        simpl. by rewrite (check_extension_unrecognized _ _ Hval).
      * by exists DataTrainingArguments.train_file_msg.
  - intros Htrain Hval msg. unfold DataTrainingArguments.__init__.
    destruct (DataTrainingArguments.streaming self) eqn:Hstream;
      [destruct (require_version env streaming_requirement streaming_hint)
         as [e|] eqn:He|].
    + by rewrite (post_init_requirement_fails env self e Hstream He).
    + rewrite (post_init_after_requirement env self (or_intror He)).
      rewrite (check_extension_recognized _ DataTrainingArguments.train_file_msg Htrain).
      simpl.
      rewrite (check_extension_recognized _ DataTrainingArguments.validation_file_msg Hval).
      by destruct (_ && _).
    + rewrite (post_init_after_requirement env self (or_introl Hstream)).
      rewrite (check_extension_recognized _ DataTrainingArguments.train_file_msg Htrain).
      simpl.
      rewrite (check_extension_recognized _ DataTrainingArguments.validation_file_msg Hval).
      by destruct (_ && _).
Qed.

(** Membership in a list of string literals, by evaluation. *)
Ltac by_evaluation := apply (bool_decide_unpack _); vm_compute; exact I.

Lemma xml_unrecognized : unrecognized (Some "train.xml").
Proof.
  exists "train.xml", "xml". split; [reflexivity|]. split.
  - split; [reflexivity|]. right. by exists "train".
  - by_evaluation.
Qed.

Lemma csv_recognized : recognized (Some "data/train.csv").
Proof.
  intros path [= <-]. exists "csv". split.
  - split; [reflexivity|]. right. by exists "data/train".
  - by_evaluation.
Qed.

Lemma absent_recognized : recognized None.
Proof. by intros path. Qed.

Lemma extension_check_witness :
  (∃ msg, DataTrainingArguments.__init__ env_datasets_recent
            (with_files (Some "train.xml") None true) = Err (AssertionError msg))
  ∧ (∀ msg, DataTrainingArguments.__init__ env_datasets_recent
              (with_files (Some "data/train.csv") None true) ≠ Err (AssertionError msg)).
Proof.
  split.
  - apply (extension_check env_datasets_recent (with_files (Some "train.xml") None true)).
    + right. reflexivity.
    + left. exact xml_unrecognized.
  - apply (extension_check env_datasets_recent (with_files (Some "data/train.csv") None true)).
    + exact csv_recognized.
    + exact absent_recognized.
Defined.

(** C4 as stated fails: with streaming on and [datasets] 1.18.0
    installed, a construction with [train_file="train.xml"] fails with
    the exception of [require_version], not with an [AssertionError]. *)
Lemma invalid_extension_behind_version_check :
  unrecognized (DataTrainingArguments.train_file (with_files (Some "train.xml") None true))
  ∧ DataTrainingArguments.__init__ env_datasets_1_18 (with_files (Some "train.xml") None true)
    = Err (Propagated "require_version"
             (datasets_too_old "datasets>=2.0.0"
                "The streaming feature requires `datasets>=2.0.0`"))
  ∧ ¬ ∃ msg, DataTrainingArguments.__init__ env_datasets_1_18
               (with_files (Some "train.xml") None true) = Err (AssertionError msg).
Proof.
  split; [exact xml_unrecognized|]. split; [reflexivity|].
  intros [msg Hmsg]. discriminate Hmsg.
Qed.

(** Sample constructions: two recognized files; an extension in upper
    case; a train file without a dot; a valid train file with an
    unrecognized validation file. *)
Example construction_with_two_files :
  DataTrainingArguments.__init__ env_datasets_1_18
    (with_files (Some "train.json") (Some "eval.txt") false)
  = Ok (with_files (Some "train.json") (Some "eval.txt") false).
Proof. reflexivity. Qed.

Example construction_upper_case_extension :
  DataTrainingArguments.__init__ env_datasets_recent
    (with_files (Some "train.CSV") None false)
  = Err (AssertionError "`train_file` should be a csv, a json or a txt file.").
Proof. reflexivity. Qed.

Example construction_dotless_train_file :
  DataTrainingArguments.__init__ env_datasets_recent
    (with_files (Some "README") None false)
  = Err (AssertionError "`train_file` should be a csv, a json or a txt file.").
Proof. reflexivity. Qed.

Example construction_bad_validation_file :
  DataTrainingArguments.__init__ env_datasets_recent
    (with_files (Some "train.csv") (Some "eval.parquet") false)
  = Err (AssertionError "`validation_file` should be a csv, a json or a txt file.").
Proof. reflexivity. Qed.

(** C5. A [DataTrainingArguments] construction with [streaming=True],
    a data source given and every given file of a recognized extension
    succeeds exactly when [require_version] accepts the requirement
    ["datasets>=2.0.0"]; when it does not, the construction fails with
    the exception [require_version] raises. *)
Theorem streaming_requires_version {TA} (env : Env TA) (self : DataTrainingArguments.t) :
  DataTrainingArguments.streaming self = true →
  has_source self →
  recognized (DataTrainingArguments.train_file self) →
  recognized (DataTrainingArguments.validation_file self) →
  (DataTrainingArguments.__init__ env self = Ok self
   ↔ require_version env "datasets>=2.0.0"
       "The streaming feature requires `datasets>=2.0.0`" = None)
  ∧ (∀ e, require_version env "datasets>=2.0.0"
            "The streaming feature requires `datasets>=2.0.0`" = Some e →
          DataTrainingArguments.__init__ env self
          = Err (Propagated "require_version" e)).
Proof.
  intros Hstream Hsrc Htrain Hval.
  assert (∀ e, require_version env streaming_requirement streaming_hint = Some e →
               DataTrainingArguments.__init__ env self
               = Err (Propagated "require_version" e)) as Hclosed.
  { intros e He. unfold DataTrainingArguments.__init__.
    by rewrite (post_init_requirement_fails env self e Hstream He). }
  split; [|exact Hclosed]. split.
  - intros Hok.
    destruct (require_version env "datasets>=2.0.0" _) as [e|] eqn:He; [|done].
    rewrite (Hclosed e He) in Hok. discriminate Hok.
  - intros Hmet. unfold DataTrainingArguments.__init__.
    rewrite (post_init_after_requirement env self (or_intror Hmet)).
    rewrite (source_test_false self Hsrc).
    rewrite (check_extension_recognized _ _ Htrain). simpl.
    by rewrite (check_extension_recognized _ _ Hval).
Qed.

Lemma streaming_requires_version_witness :
  (DataTrainingArguments.__init__ env_datasets_recent
     (with_files (Some "data/train.csv") None true)
   = Ok (with_files (Some "data/train.csv") None true))
  ∧ DataTrainingArguments.__init__ env_datasets_1_18
      (with_files (Some "data/train.csv") None true)
    = Err (Propagated "require_version"
             (datasets_too_old "datasets>=2.0.0"
                "The streaming feature requires `datasets>=2.0.0`")).
Proof.
  assert (has_source (with_files (Some "data/train.csv") None true)) as Hsrc
    by (right; left; discriminate).
  split.
  - apply (streaming_requires_version env_datasets_recent
             (with_files (Some "data/train.csv") None true)
             eq_refl Hsrc csv_recognized absent_recognized).
    reflexivity.
  - apply (streaming_requires_version env_datasets_1_18
             (with_files (Some "data/train.csv") None true)
             eq_refl Hsrc csv_recognized absent_recognized).
    reflexivity.
Defined.

(** C10. The version check comes first: with [streaming=True] and the
    requirement not met, the construction fails with the exception
    [require_version] raises, whatever the data sources are, also when
    none is given; it does not fail with the [ValueError] that asks for
    a data source. *)
Theorem version_check_first {TA} (env : Env TA) (self : DataTrainingArguments.t)
    (e : foreign_exn) :
  DataTrainingArguments.streaming self = true →
  require_version env "datasets>=2.0.0"
    "The streaming feature requires `datasets>=2.0.0`" = Some e →
  DataTrainingArguments.__init__ env self = Err (Propagated "require_version" e)
  ∧ DataTrainingArguments.__init__ env self
    ≠ Err (ValueError DataTrainingArguments.missing_source_msg).
Proof.
  intros Hstream He.
  assert (DataTrainingArguments.__init__ env self
          = Err (Propagated "require_version" e)) as Hfail.
  { unfold DataTrainingArguments.__init__.
    by rewrite (post_init_requirement_fails env self e Hstream He). }
  split; [exact Hfail|]. rewrite Hfail. discriminate.
Qed.

Lemma version_check_first_witness :
  DataTrainingArguments.dataset_name (with_files None None true) = None
  ∧ DataTrainingArguments.train_file (with_files None None true) = None
  ∧ DataTrainingArguments.validation_file (with_files None None true) = None
  ∧ DataTrainingArguments.__init__ env_datasets_1_18 (with_files None None true)
    = Err (Propagated "require_version"
             (datasets_too_old "datasets>=2.0.0"
                "The streaming feature requires `datasets>=2.0.0`"))
  ∧ DataTrainingArguments.__init__ env_datasets_1_18 (with_files None None true)
    ≠ Err (ValueError DataTrainingArguments.missing_source_msg).
Proof.
  do 3 (split; [reflexivity|]).
  exact (version_check_first env_datasets_1_18 (with_files None None true)
           (datasets_too_old "datasets>=2.0.0"
              "The streaming feature requires `datasets>=2.0.0`")
           eq_refl eq_refl).
Defined.

(** ** Allocation *)

Lemma lookup_alloc_new (h : heap) (o : obj) : (h ++ [o]) !! length h = Some o.
Proof. by rewrite list_lookup_middle. Qed.

Lemma lookup_alloc_old (h : heap) (o : obj) (l : loc) :
  l < length h → (h ++ [o]) !! l = h !! l.
Proof. intros Hl. by rewrite lookup_app_l. Qed.

Lemma lookup_unallocated (h : heap) : h !! length h = None.
Proof. by apply lookup_ge_None_2. Qed.

Lemma list_append_spec (h : heap) (l : loc) (items : list string) (x : string) :
  h !! l = Some (ListObj items) →
  list_append l x h = (Ok tt, <[l := ListObj (items ++ [x])]> h).
Proof. unfold list_append. by intros ->. Qed.

(** ** [FinetuneArguments] *)

(** What a construction without arguments does to the heap. *)
Lemma finetune_no_kwargs_run (h : heap) :
  FinetuneArguments.__init__ FinetuneArguments.no_kwargs h
  = (Ok {| FinetuneArguments.lora_rank := 8;
           FinetuneArguments.lora_alpha := 32;
           FinetuneArguments.lora_dropout := FinetuneArguments.lora_dropout_default;
           FinetuneArguments.lora_target_modules := length h;
           FinetuneArguments.peft := Some "lora" |},
     h ++ [ListObj ["q"; "v"]]).
Proof. reflexivity. Qed.

(** C7. [FinetuneArguments()] has [lora_rank] 8, [lora_alpha] 32,
    [lora_target_modules] the list of "q" and "v", and [peft] "lora".
    The list is a new object at each construction: it sits at a
    location that was free before, two constructions give two
    locations, and an [append] to the list of the first leaves the
    list of the second as it was. *)
Theorem finetune_defaults_fresh (h : heap) :
  ∃ a b h1 h2,
    FinetuneArguments.__init__ FinetuneArguments.no_kwargs h = (Ok a, h1)
    ∧ FinetuneArguments.__init__ FinetuneArguments.no_kwargs h1 = (Ok b, h2)
    ∧ FinetuneArguments.lora_rank a = 8%Z
    ∧ FinetuneArguments.lora_alpha a = 32%Z
    ∧ FinetuneArguments.peft a = Some "lora"
    ∧ h1 !! FinetuneArguments.lora_target_modules a = Some (ListObj ["q"; "v"])
    ∧ h !! FinetuneArguments.lora_target_modules a = None
    ∧ h2 !! FinetuneArguments.lora_target_modules b = Some (ListObj ["q"; "v"])
    ∧ h1 !! FinetuneArguments.lora_target_modules b = None
    ∧ FinetuneArguments.lora_target_modules a ≠ FinetuneArguments.lora_target_modules b
    ∧ ∀ x, ∃ h3,
        list_append (FinetuneArguments.lora_target_modules a) x h2 = (Ok tt, h3)
        ∧ h3 !! FinetuneArguments.lora_target_modules a = Some (ListObj ["q"; "v"; x])
        ∧ h3 !! FinetuneArguments.lora_target_modules b = Some (ListObj ["q"; "v"]).
Proof.
  eexists _, _, _, _.
  split; [apply finetune_no_kwargs_run|].
  split; [apply finetune_no_kwargs_run|]. simpl.
  do 3 (split; [reflexivity|]).
  split; [apply lookup_alloc_new|].
  split; [apply lookup_unallocated|].
  split; [apply lookup_alloc_new|].
  split; [apply lookup_unallocated|].
  assert (length h ≠ length (h ++ [ListObj ["q"; "v"]])) as Hne
    by (rewrite length_app; simpl; lia).
  split; [exact Hne|].
  intros x.
  eexists. split; [|split].
  - apply list_append_spec. rewrite <- (assoc_L (++)).
    by apply list_lookup_middle.
  - apply list_lookup_insert_eq. rewrite !length_app. simpl. lia.
  - rewrite list_lookup_insert_ne by exact Hne. apply lookup_alloc_new.
Qed.

(** In contrast, the default [excluded_precisions] of
    [OptimizationConfig] is one object for all constructions: an
    [append] through one instance shows in every other. *)
Lemma optimization_default_list_shared dflt (h : heap) items x :
  h !! OptimizationConfig.excluded_precisions_default dflt = Some (ListObj items) →
  ∃ h',
    list_append
      (OptimizationConfig.excluded_precisions
         (OptimizationConfig.__init__ dflt OptimizationConfig.no_kwargs)) x h
    = (Ok tt, h')
    ∧ h' !! OptimizationConfig.excluded_precisions
              (OptimizationConfig.__init__ dflt OptimizationConfig.no_kwargs)
      = Some (ListObj (items ++ [x])).
Proof.
  intros Hdflt. eexists. split.
  - by apply list_append_spec.
  - apply list_lookup_insert_eq. by eapply lookup_lt_Some.
Qed.

Lemma import_allocates_defaults :
  OptimizationConfig.def___init__ [] = (Ok imported_defaults, imported_heap).
Proof. reflexivity. Qed.

(** C6, as the code has it.  Every [FinetuneArguments] construction
    succeeds and stores the [lora_dropout] it is given as it is, with
    no range check, and 0.1 when none is given; the stored value lies
    in the interval from 0 (included) to 1 (excluded) exactly when the
    value passed does, or none is passed. *)
Theorem lora_dropout_stored (kw : FinetuneArguments.kwargs) (h : heap) :
  ∃ self h',
    FinetuneArguments.__init__ kw h = (Ok self, h')
    ∧ FinetuneArguments.lora_dropout self
      = default FinetuneArguments.lora_dropout_default
          (FinetuneArguments.kw_lora_dropout kw)
    ∧ in_unit_interval (FinetuneArguments.lora_dropout self)
      = match FinetuneArguments.kw_lora_dropout kw with
        | Some x => in_unit_interval x
        | None => true
        end.
Proof.
  unfold FinetuneArguments.__init__, bind.
  destruct (match FinetuneArguments.kw_lora_target_modules kw with
            | Some l => ret l
            | None => FinetuneArguments.default_factory
            end h) as [[l|e] h1] eqn:Hmodules.
  - eexists _, _. split; [reflexivity|]. simpl. split; [reflexivity|].
    by destruct (FinetuneArguments.kw_lora_dropout kw).
  - by destruct (FinetuneArguments.kw_lora_target_modules kw).
Qed.

(** C6 as stated fails: [FinetuneArguments(lora_dropout=1.5)] is
    constructed, and its [lora_dropout] is 1.5. *)
Lemma lora_dropout_out_of_range :
  ∃ self h',
    FinetuneArguments.__init__ (with_lora_dropout 1.5) [] = (Ok self, h')
    ∧ FinetuneArguments.lora_dropout self = 1.5%float
    ∧ in_unit_interval (FinetuneArguments.lora_dropout self) = false.
Proof. eexists _, _. split; [reflexivity|]. split; reflexivity. Qed.

(** ** [NeuralChatConfig] *)

(** [ModelArguments()] is refused: [model_name_or_path] has no default. *)
Lemma model_arguments_need_a_name :
  ModelArguments.__init__ ModelArguments.no_kwargs
  = Err (TypeError_missing "ModelArguments.__init__" ["model_name_or_path"]).
Proof. reflexivity. Qed.

(** [DataTrainingArguments()] is refused too, in every environment:
    it names no data source. *)
Lemma default_data_arguments_rejected {TA} (env : Env TA) :
  DataTrainingArguments.__init__ env DataTrainingArguments.defaults
  = Err (ValueError DataTrainingArguments.missing_source_msg).
Proof. reflexivity. Qed.

(** With a [finetune_config] passed, the construction succeeds, and an
    [optimize_config] that is not passed is the default one, with mode
    "latency" and precision "bf16". *)
Lemma construction_with_finetune_config {TA} (env : Env TA) dflt
    (a : NeuralChatConfig.args TA) (fc : FinetuningConfig.t TA) (h : heap) :
  NeuralChatConfig.a_finetune_config a = Some fc →
  NeuralChatConfig.a_optimize_config a = None →
  ∃ self,
    NeuralChatConfig.__init__ env dflt a h = (Ok self, h)
    ∧ NeuralChatConfig.finetune_config self = fc
    ∧ OptimizationConfig.mode (NeuralChatConfig.optimize_config self) = "latency"
    ∧ OptimizationConfig.precision (NeuralChatConfig.optimize_config self) = "bf16".
Proof.
  intros Hfc Hoc. unfold NeuralChatConfig.__init__, bind. rewrite Hfc, Hoc.
  eexists. split; [reflexivity|]. by simpl.
Qed.

(** C1 at the failing input.  A [NeuralChatConfig] construction without
    a [finetune_config], as [NeuralChatConfig()] is, does not succeed:
    it raises the [TypeError] of the call [ModelArguments()], which
    lacks the required [model_name_or_path], and no default
    configuration is made. *)
Theorem default_construction_raises {TA} (env : Env TA)
    (dflt : OptimizationConfig.parameter_defaults)
    (a : NeuralChatConfig.args TA) (h : heap) :
  NeuralChatConfig.a_finetune_config a = None →
  NeuralChatConfig.__init__ env dflt a h
  = (Err (TypeError_missing "ModelArguments.__init__" ["model_name_or_path"]), h).
Proof.
  intros Hfc. unfold NeuralChatConfig.__init__, bind. by rewrite Hfc.
Qed.

Lemma default_construction_raises_witness :
  NeuralChatConfig.__init__ env_datasets_recent imported_defaults
    NeuralChatConfig.defaults imported_heap
  = (Err (TypeError_missing "ModelArguments.__init__" ["model_name_or_path"]),
     imported_heap).
Proof.
  exact (default_construction_raises env_datasets_recent imported_defaults
           NeuralChatConfig.defaults imported_heap eq_refl).
Defined.

(** ** [BaseModel] *)

(** A call without arguments of a method with a required parameter
    raises, and the body of the method does not run. *)
Lemma call_without_required_argument (m : BaseModel.method) (tr : BaseModel.trace) :
  BaseModel.required (BaseModel.m_params m) ≠ [] →
  BaseModel.call m [] tr
  = (Err (TypeError_missing (BaseModel.m_name m)
            (BaseModel.required (BaseModel.m_params m))), tr).
Proof.
  intros Hreq. unfold BaseModel.call, bind, lift.
  destruct (BaseModel.m_params m) as [|p ps]; [done|].
  cbn [BaseModel.bind_parameters].
  by destruct (BaseModel.required (p :: ps)).
Qed.

(** A subclass whose [init_model] needs no argument and returns a pair
    is constructed: the body of [init_model] runs once, and the pair
    becomes [model] and [tokenizer]. *)
Lemma lenient_subclass_constructed (m t : BaseModel.value) (tr : BaseModel.trace) :
  BaseModel.new (lenient_subclass m t) tr
  = (Ok {| BaseModel.class := lenient_subclass m t;
           BaseModel.model := m;
           BaseModel.tokenizer := t |},
     tr ++ [{| BaseModel.ev_method := "init_model";
               BaseModel.ev_args := [BaseModel.VNone] |}]).
Proof. reflexivity. Qed.

(** A subclass that leaves [predict] abstract is not instantiated. *)
Lemma abstract_subclass_refused (m : BaseModel.method) (tr : BaseModel.trace) :
  BaseModel.new {| BaseModel.init_model := Some m;
                   BaseModel.predict_stream := Some m;
                   BaseModel.predict := None |} tr
  = (Err (TypeError_abstract ["predict"]), tr).
Proof. reflexivity. Qed.

(** C2 at the failing input.  For a subclass that implements
    [init_model] with the declared signature [init_model(self, config)],
    [predict] and [predict_stream], whatever their bodies do, the
    construction does not succeed: [__init__] calls [init_model]
    without an argument, the call raises a [TypeError] for the missing
    [config], and the body of [init_model] is not run, not even once. *)
Theorem declared_signature_not_constructible (c : BaseModel.subclass)
    (m : BaseModel.method) (tr : BaseModel.trace) :
  BaseModel.init_model c = Some m →
  BaseModel.m_params m = BaseModel.m_params BaseModel.abstract_init_model →
  is_Some (BaseModel.predict c) →
  is_Some (BaseModel.predict_stream c) →
  BaseModel.new c tr = (Err (TypeError_missing (BaseModel.m_name m) ["config"]), tr).
Proof.
  intros Hinit Hsig [p Hp] [ps Hps].
  unfold BaseModel.new, BaseModel.abstract_methods.
  rewrite Hinit, Hp, Hps. simpl.
  unfold BaseModel.__init__, bind. rewrite Hinit. simpl.
  rewrite call_without_required_argument; rewrite Hsig; done.
Qed.

Lemma declared_signature_not_constructible_witness :
  BaseModel.new
    (declared_subclass
       (λ _, Ok (BaseModel.VTuple [BaseModel.VHandle 1; BaseModel.VHandle 2]))
       (λ _, Ok BaseModel.VNone) (λ _, Ok BaseModel.VNone)) []
  = (Err (TypeError_missing "init_model" ["config"]), []).
Proof.
  refine (declared_signature_not_constructible
            (declared_subclass
               (λ _, Ok (BaseModel.VTuple [BaseModel.VHandle 1; BaseModel.VHandle 2]))
               (λ _, Ok BaseModel.VNone) (λ _, Ok BaseModel.VNone))
            _ [] eq_refl eq_refl _ _);
    eexists; reflexivity.
Defined.

(** C8. The [match] of the base class returns true for every instance
    and every [model_path]. *)
Theorem match_always_true (self : BaseModel.t) (model_path : string) :
  BaseModel.match_ self model_path = true.
Proof. reflexivity. Qed.

(** C9. The [get_default_conv_template] of the base class returns, for
    every instance and every [model_path], what the registry of
    conversation templates gives for the name "one_shot". *)
Theorem default_conv_template_one_shot {Conversation}
    (get_conv_template : string → foreign_exn + Conversation)
    (self : BaseModel.t) (model_path : string) :
  BaseModel.get_default_conv_template get_conv_template self model_path
  = get_conv_template "one_shot".
Proof. reflexivity. Qed.

(** * Further properties of the code *)

(** ** More on the validation of [DataTrainingArguments] *)

Lemma recognized_or_unrecognized file : recognized file ∨ unrecognized file.
Proof.
  destruct file as [path|]; [|left; exact absent_recognized].
  destruct (extension_of_total path) as [e He]. apply extension_of_spec in He.
  destruct (decide (e ∈ recognized_extensions)) as [Hin|Hout].
  - left. intros ? [= <-]. by exists e.
  - right. by exists path, e.
Qed.

Lemma recognized_not_unrecognized file : recognized file → ¬ unrecognized file.
Proof.
  intros Hrec (path & e & -> & He & Hout).
  destruct (Hrec path eq_refl) as (e' & He' & Hin).
  by rewrite (has_extension_unique path e e' He He') in Hout.
Qed.

Lemma check_extension_ok_iff file msg :
  DataTrainingArguments.check_extension file msg = Ok tt ↔ recognized file.
Proof.
  split; [|apply check_extension_recognized].
  intros Hok. destruct (recognized_or_unrecognized file) as [|Hbad]; [done|].
  by rewrite (check_extension_unrecognized file msg Hbad) in Hok.
Qed.

Lemma check_extension_err file msg e :
  DataTrainingArguments.check_extension file msg = Err e →
  unrecognized file ∧ e = AssertionError msg.
Proof.
  intros Herr. destruct (recognized_or_unrecognized file) as [Hrec|Hbad].
  - by rewrite (check_extension_recognized file msg Hrec) in Herr.
  - rewrite (check_extension_unrecognized file msg Hbad) in Herr.
    by injection Herr as <-.
Qed.

Lemma source_test_true_iff (self : DataTrainingArguments.t) :
  bool_decide (DataTrainingArguments.dataset_name self = None)
  && bool_decide (DataTrainingArguments.train_file self = None)
  && bool_decide (DataTrainingArguments.validation_file self = None) = true
  ↔ ¬ has_source self.
Proof.
  unfold has_source. rewrite !andb_true_iff, !bool_decide_eq_true. split.
  - intros [[Hd Ht] Hv] [H | [H | H]]; contradiction.
  - intros Hno. repeat split.
    + destruct (DataTrainingArguments.dataset_name self) eqn:E; [|done].
      destruct Hno. by left.
    + destruct (DataTrainingArguments.train_file self) eqn:E; [|done].
      destruct Hno. right. by left.
    + destruct (DataTrainingArguments.validation_file self) eqn:E; [|done].
      destruct Hno. right. by right.
Qed.

(** The requirement passes, or streaming is on and [require_version]
    raises. *)
Lemma requirement_passes_or_fails {TA} (env : Env TA) (self : DataTrainingArguments.t) :
  requirement_passes env self
  ∨ (DataTrainingArguments.streaming self = true
     ∧ ∃ fe, require_version env streaming_requirement streaming_hint = Some fe).
Proof.
  unfold requirement_passes.
  destruct (DataTrainingArguments.streaming self); [|by left; left].
  destruct (require_version env streaming_requirement streaming_hint) as [fe|].
  - right. split; [done|]. by exists fe.
  - left. by right.
Qed.

Lemma requirement_not_both {TA} (env : Env TA) (self : DataTrainingArguments.t) fe :
  requirement_passes env self →
  DataTrainingArguments.streaming self = true →
  require_version env streaming_requirement streaming_hint = Some fe → False.
Proof. intros [Hoff|Hmet] Hon Hfe; congruence. Qed.

(** X1. A [DataTrainingArguments] construction returns an object
    exactly when streaming is off or the [datasets] requirement is met,
    a data source is given, and every given file has a recognized
    extension; the object then holds the arguments as they were passed. *)
Theorem construction_accepted_iff {TA} (env : Env TA) (self r : DataTrainingArguments.t) :
  DataTrainingArguments.__init__ env self = Ok r
  ↔ r = self
    ∧ requirement_passes env self
    ∧ has_source self
    ∧ recognized (DataTrainingArguments.train_file self)
    ∧ recognized (DataTrainingArguments.validation_file self).
Proof.
  unfold DataTrainingArguments.__init__. split.
  - intros Hok.
    destruct (requirement_passes_or_fails env self) as [Hpass|[Hon [fe Hfe]]].
    + rewrite (post_init_after_requirement env self Hpass) in Hok.
      destruct (_ && _) eqn:Hsrc in Hok; [done|].
      assert (has_source self) as Hsource.
      { apply dec_stable. intros Hno.
        apply source_test_true_iff in Hno. congruence. }
      destruct (DataTrainingArguments.check_extension
                  (DataTrainingArguments.train_file self) _) as [[]|e] eqn:Htrain;
        [|done].
      simpl in Hok.
      destruct (DataTrainingArguments.check_extension
                  (DataTrainingArguments.validation_file self) _) as [[]|e] eqn:Hval;
        [|done].
      simpl in Hok. injection Hok as <-.
      apply check_extension_ok_iff in Htrain, Hval. done.
    + by rewrite (post_init_requirement_fails env self fe Hon Hfe) in Hok.
  - intros (-> & Hpass & Hsrc & Htrain & Hval).
    rewrite (post_init_after_requirement env self Hpass).
    rewrite (source_test_false self Hsrc).
    rewrite (check_extension_recognized _ _ Htrain). simpl.
    by rewrite (check_extension_recognized _ _ Hval).
Qed.

(** X2. The failures of a [DataTrainingArguments] construction, in the
    order the checks run: the exception of [require_version] when
    streaming is on and the requirement is not met; else the
    [ValueError] when no data source is given; else the [AssertionError]
    for [train_file] when its extension is not recognized; else the one
    for [validation_file].  There is no other failure. *)
Theorem construction_failure_kinds {TA} (env : Env TA)
    (self : DataTrainingArguments.t) (e : exn) :
  DataTrainingArguments.__init__ env self = Err e
  ↔ (∃ fe, DataTrainingArguments.streaming self = true
           ∧ require_version env "datasets>=2.0.0"
               "The streaming feature requires `datasets>=2.0.0`" = Some fe
           ∧ e = Propagated "require_version" fe)
    ∨ (requirement_passes env self
       ∧ ¬ has_source self
       ∧ e = ValueError "Need either a dataset name or a training/validation file.")
    ∨ (requirement_passes env self
       ∧ unrecognized (DataTrainingArguments.train_file self)
       ∧ e = AssertionError "`train_file` should be a csv, a json or a txt file.")
    ∨ (requirement_passes env self
       ∧ recognized (DataTrainingArguments.train_file self)
       ∧ unrecognized (DataTrainingArguments.validation_file self)
       ∧ e = AssertionError "`validation_file` should be a csv, a json or a txt file.").
Proof.
  unfold DataTrainingArguments.__init__. split.
  - intros Herr.
    destruct (requirement_passes_or_fails env self) as [Hpass|[Hon [fe Hfe]]].
    + right. rewrite (post_init_after_requirement env self Hpass) in Herr.
      destruct (_ && _) eqn:Hsrc in Herr.
      * left. apply source_test_true_iff in Hsrc.
        simpl in Herr. by injection Herr as <-.
      * right.
        destruct (DataTrainingArguments.check_extension
                    (DataTrainingArguments.train_file self) _) as [[]|e'] eqn:Htrain.
        -- right. apply check_extension_ok_iff in Htrain. simpl in Herr.
           destruct (DataTrainingArguments.check_extension
                       (DataTrainingArguments.validation_file self) _)
             as [[]|e''] eqn:Hval; [done|].
           simpl in Herr. injection Herr as <-.
           by apply check_extension_err in Hval as [Hbad ->].
        -- left. simpl in Herr. injection Herr as <-.
           by apply check_extension_err in Htrain as [Hbad ->].
    + left. exists fe.
      rewrite (post_init_requirement_fails env self fe Hon Hfe) in Herr.
      simpl in Herr. by injection Herr as <-.
  - intros [(fe & Hon & Hfe & ->) | [(Hpass & Hno & ->) | [(Hpass & Hbad & ->)
           | (Hpass & Htrain & Hbad & ->)]]].
    + by rewrite (post_init_requirement_fails env self fe Hon Hfe).
    + rewrite (post_init_after_requirement env self Hpass).
      apply source_test_true_iff in Hno. by rewrite Hno.
    + rewrite (post_init_after_requirement env self Hpass).
      rewrite (source_test_false self); [|right; left; by apply unrecognized_given].
      by rewrite (check_extension_unrecognized _ _ Hbad).
    + rewrite (post_init_after_requirement env self Hpass).
      rewrite (source_test_false self); [|right; right; by apply unrecognized_given].
      rewrite (check_extension_recognized _ _ Htrain). simpl.
      by rewrite (check_extension_unrecognized _ _ Hbad).
Qed.

(** X3. With streaming off, a [DataTrainingArguments] construction
    does not depend on the environment: [require_version] is not
    consulted, whatever version of [datasets] is installed. *)
Theorem streaming_off_ignores_environment {TA TB} (env1 : Env TA) (env2 : Env TB)
    (self : DataTrainingArguments.t) :
  DataTrainingArguments.streaming self = false →
  DataTrainingArguments.__init__ env1 self = DataTrainingArguments.__init__ env2 self.
Proof.
  intros Hoff. unfold DataTrainingArguments.__init__.
  rewrite (post_init_after_requirement env1 self (or_introl Hoff)).
  by rewrite (post_init_after_requirement env2 self (or_introl Hoff)).
Qed.

Lemma streaming_off_ignores_environment_witness :
  DataTrainingArguments.__init__ env_datasets_recent
    (with_files (Some "train.json") (Some "eval.parquet") false)
  = DataTrainingArguments.__init__ env_datasets_1_18
      (with_files (Some "train.json") (Some "eval.parquet") false).
Proof.
  exact (streaming_off_ignores_environment env_datasets_recent env_datasets_1_18
           (with_files (Some "train.json") (Some "eval.parquet") false) eq_refl).
Defined.

Lemma recognized_extension_dot_free e :
  e ∈ recognized_extensions → char_free "." e = true.
Proof.
  unfold recognized_extensions. rewrite !elem_of_cons, elem_of_nil.
  by intros [-> | [-> | [-> | []]]].
Qed.

(** X4. The paths the extension check accepts are the three names
    csv, json and txt themselves and the paths that end in a dot
    followed by one of them; every other path fails the check with the
    [AssertionError] of the given message. *)
Theorem accepted_paths (path msg : string) :
  (DataTrainingArguments.check_extension (Some path) msg = Ok tt
   ↔ ∃ e, e ∈ ["csv"; "json"; "txt"]
          ∧ (path = e ∨ ∃ stem, path = stem +:+ "." +:+ e))
  ∧ (DataTrainingArguments.check_extension (Some path) msg = Ok tt
     ∨ DataTrainingArguments.check_extension (Some path) msg
       = Err (AssertionError msg)).
Proof.
  split; [|apply check_extension_cases].
  rewrite check_extension_ok_iff. split.
  - intros Hrec. destruct (Hrec path eq_refl) as (e & [_ He] & Hin). by exists e.
  - intros (e & Hin & He) ? [= <-]. exists e. split; [|done].
    split; [|done]. by apply recognized_extension_dot_free.
Qed.

(** X5. The extension [path.split(".")[-1]] is defined for every path
    (the index never fails), holds no dot, and is the end of the path:
    the path is the extension itself or a stem, a dot and the
    extension.  It is the only string with these properties. *)
Theorem extension_is_last_segment (path : string) :
  ∃ e, DataTrainingArguments.extension_of path = Ok e
       ∧ char_free "." e = true
       ∧ (path = e ∨ ∃ stem, path = stem +:+ "." +:+ e)
       ∧ ∀ e', char_free "." e' = true →
               (path = e' ∨ ∃ stem, path = stem +:+ "." +:+ e') → e' = e.
Proof.
  destruct (extension_of_total path) as [e He]. exists e.
  split; [exact He|]. apply extension_of_spec in He.
  destruct He as [Hfree Hend]. split; [exact Hfree|]. split; [exact Hend|].
  intros e' Hfree' Hend'.
  by apply (has_extension_unique path e' e).
Qed.

(** ** More on [FinetuneArguments] *)

(** X6. A [FinetuneArguments] construction that is passed a list of
    target modules makes no new object and holds the caller's list
    itself: what the caller appends to the list afterwards shows in the
    instance. *)
Theorem passed_modules_aliased (kw : FinetuneArguments.kwargs) (h : heap)
    (l : loc) (items : list string) (x : string) :
  FinetuneArguments.kw_lora_target_modules kw = Some l →
  h !! l = Some (ListObj items) →
  ∃ self h',
    FinetuneArguments.__init__ kw h = (Ok self, h)
    ∧ FinetuneArguments.lora_target_modules self = l
    ∧ list_append l x h = (Ok tt, h')
    ∧ h' !! FinetuneArguments.lora_target_modules self = Some (ListObj (items ++ [x])).
Proof.
  intros Hkw Hl. unfold FinetuneArguments.__init__, bind. rewrite Hkw.
  eexists _, _. split; [reflexivity|]. split; [reflexivity|]. split.
  - by apply list_append_spec.
  - simpl. apply list_lookup_insert_eq. by eapply lookup_lt_Some.
Qed.

Lemma passed_modules_aliased_witness :
  ∃ self h',
    FinetuneArguments.__init__ (with_target_modules 0) [ListObj ["k"; "o"]]
    = (Ok self, [ListObj ["k"; "o"]])
    ∧ FinetuneArguments.lora_target_modules self = 0
    ∧ list_append 0 "up" [ListObj ["k"; "o"]] = (Ok tt, h')
    ∧ h' !! FinetuneArguments.lora_target_modules self
      = Some (ListObj (["k"; "o"] ++ ["up"])).
Proof.
  exact (passed_modules_aliased (with_target_modules 0) [ListObj ["k"; "o"]]
           0 ["k"; "o"] "up" eq_refl eq_refl).
Defined.

(** X7. Every [FinetuneArguments] construction succeeds and leaves
    the objects of the heap as they were; it adds one object, the list
    of "q" and "v", when no target modules are passed, and none when
    they are. *)
Theorem finetune_construction_frames_heap (kw : FinetuneArguments.kwargs) (h : heap) :
  ∃ self h',
    FinetuneArguments.__init__ kw h = (Ok self, h')
    ∧ (∀ l o, h !! l = Some o → h' !! l = Some o)
    ∧ match FinetuneArguments.kw_lora_target_modules kw with
      | Some l => h' = h ∧ FinetuneArguments.lora_target_modules self = l
      | None => h' = h ++ [ListObj ["q"; "v"]]
                ∧ FinetuneArguments.lora_target_modules self = length h
      end.
Proof.
  unfold FinetuneArguments.__init__, bind.
  destruct (FinetuneArguments.kw_lora_target_modules kw) as [l|].
  - eexists _, _. split; [reflexivity|]. by split.
  - eexists _, _. split; [reflexivity|]. split; [|by split].
    intros l o Hl. rewrite lookup_alloc_old; [done|]. by eapply lookup_lt_Some.
Qed.

(** ** More on [OptimizationConfig] *)

(** X8. The default [excluded_precisions] list and the default
    [recipes] dict are made once, when [__init__] is defined, and are
    two objects.  All constructions that pass no [excluded_precisions]
    hold that one list, whatever else they pass: it is empty at first,
    and what is appended to it through one instance shows in the
    others. *)
Theorem default_excluded_precisions_shared (h : heap)
    (kw1 kw2 : OptimizationConfig.kwargs) (x : string) :
  OptimizationConfig.kw_excluded_precisions kw1 = None →
  OptimizationConfig.kw_excluded_precisions kw2 = None →
  ∃ dflt h1 h2,
    OptimizationConfig.def___init__ h = (Ok dflt, h1)
    ∧ OptimizationConfig.excluded_precisions_default dflt
      ≠ OptimizationConfig.recipes_default dflt
    ∧ h1 !! OptimizationConfig.excluded_precisions (OptimizationConfig.__init__ dflt kw2)
      = Some (ListObj [])
    ∧ list_append
        (OptimizationConfig.excluded_precisions (OptimizationConfig.__init__ dflt kw1))
        x h1 = (Ok tt, h2)
    ∧ h2 !! OptimizationConfig.excluded_precisions (OptimizationConfig.__init__ dflt kw2)
      = Some (ListObj [x]).
Proof.
  intros Hkw1 Hkw2.
  assert ((h ++ [ListObj []] ++ [DictObj ∅]) !! length h = Some (ListObj [])) as Hl
    by (by apply list_lookup_middle).
  eexists _, _, _. split; [reflexivity|].
  unfold OptimizationConfig.__init__. simpl. rewrite Hkw1, Hkw2. simpl.
  rewrite <- (assoc_L (++)).
  split; [rewrite length_app; simpl; lia|].
  split; [exact Hl|].
  split; [by apply list_append_spec|].
  apply list_lookup_insert_eq. rewrite !length_app. simpl. lia.
Qed.

Lemma default_excluded_precisions_shared_witness :
  ∃ dflt h1 h2,
    OptimizationConfig.def___init__ [] = (Ok dflt, h1)
    ∧ OptimizationConfig.excluded_precisions_default dflt
      ≠ OptimizationConfig.recipes_default dflt
    ∧ h1 !! OptimizationConfig.excluded_precisions
              (OptimizationConfig.__init__ dflt (with_mode "throughput"))
      = Some (ListObj [])
    ∧ list_append
        (OptimizationConfig.excluded_precisions
           (OptimizationConfig.__init__ dflt (with_mode "latency")))
        "fp16" h1 = (Ok tt, h2)
    ∧ h2 !! OptimizationConfig.excluded_precisions
              (OptimizationConfig.__init__ dflt (with_mode "throughput"))
      = Some (ListObj ["fp16"]).
Proof.
  exact (default_excluded_precisions_shared [] (with_mode "latency")
           (with_mode "throughput") "fp16" eq_refl eq_refl).
Defined.

(** ** More on [NeuralChatConfig] *)

(** X9. A [NeuralChatConfig] construction returns an object exactly
    when a [finetune_config] is passed.  The heap is then as it was, and
    the object holds the arguments as passed, with the default
    [OptimizationConfig] in place of an [optimize_config] that is not
    passed. *)
Theorem neural_chat_config_constructed_iff {TA} (env : Env TA)
    (dflt : OptimizationConfig.parameter_defaults)
    (a : NeuralChatConfig.args TA) (h h' : heap) (self : NeuralChatConfig.t TA) :
  NeuralChatConfig.__init__ env dflt a h = (Ok self, h')
  ↔ h' = h
    ∧ ∃ fc,
        NeuralChatConfig.a_finetune_config a = Some fc
        ∧ self
          = {| NeuralChatConfig.model_name_or_path := NeuralChatConfig.a_model_name_or_path a;
               NeuralChatConfig.inputs := NeuralChatConfig.a_inputs a;
               NeuralChatConfig.device := NeuralChatConfig.a_device a;
               NeuralChatConfig.backend := NeuralChatConfig.a_backend a;
               NeuralChatConfig.retrieval := NeuralChatConfig.a_retrieval a;
               NeuralChatConfig.retrieval_type := NeuralChatConfig.a_retrieval_type a;
               NeuralChatConfig.txt2Image := NeuralChatConfig.a_txt2Image a;
               NeuralChatConfig.audio_input := NeuralChatConfig.a_audio_input a;
               NeuralChatConfig.audio_output := NeuralChatConfig.a_audio_output a;
               NeuralChatConfig.server_mode := NeuralChatConfig.a_server_mode a;
               NeuralChatConfig.finetune_config := fc;
               NeuralChatConfig.optimize_config :=
                 default (OptimizationConfig.__init__ dflt OptimizationConfig.no_kwargs)
                   (NeuralChatConfig.a_optimize_config a);
               NeuralChatConfig.use_hpu_graphs := NeuralChatConfig.a_use_hpu_graphs a |}.
Proof.
  unfold NeuralChatConfig.__init__, bind. split.
  - destruct (NeuralChatConfig.a_finetune_config a) as [fc|]; [|done].
    destruct (NeuralChatConfig.a_optimize_config a) as [oc|];
      intros [= <- <-]; (split; [done|]); by exists fc.
  - intros (-> & fc & Hfc & ->). rewrite Hfc.
    by destruct (NeuralChatConfig.a_optimize_config a).
Qed.

(** X10. A [NeuralChatConfig] construction never gets to consult its
    collaborators: with a [finetune_config] passed they are not called,
    and without one the construction stops at [ModelArguments()] before
    [require_version] or [TrainingArguments()] could run.  The outcome
    is the same in every environment. *)
Theorem collaborators_never_consulted {TA} (env1 env2 : Env TA)
    (dflt : OptimizationConfig.parameter_defaults)
    (a : NeuralChatConfig.args TA) (h : heap) :
  NeuralChatConfig.__init__ env1 dflt a h = NeuralChatConfig.__init__ env2 dflt a h.
Proof.
  unfold NeuralChatConfig.__init__, bind.
  by destruct (NeuralChatConfig.a_finetune_config a).
Qed.

(** X11. Two [NeuralChatConfig] objects built without an
    [optimize_config] share one [excluded_precisions] list, the default
    one of [OptimizationConfig.__init__]: what is appended to it through
    the first shows in the second. *)
Theorem configs_share_excluded_precisions {TA} (env : Env TA)
    (dflt : OptimizationConfig.parameter_defaults)
    (a1 a2 : NeuralChatConfig.args TA) (h : heap) (items : list string) (x : string) :
  NeuralChatConfig.a_finetune_config a1 ≠ None →
  NeuralChatConfig.a_finetune_config a2 ≠ None →
  NeuralChatConfig.a_optimize_config a1 = None →
  NeuralChatConfig.a_optimize_config a2 = None →
  h !! OptimizationConfig.excluded_precisions_default dflt = Some (ListObj items) →
  ∃ s1 s2 h',
    NeuralChatConfig.__init__ env dflt a1 h = (Ok s1, h)
    ∧ NeuralChatConfig.__init__ env dflt a2 h = (Ok s2, h)
    ∧ list_append
        (OptimizationConfig.excluded_precisions (NeuralChatConfig.optimize_config s1))
        x h = (Ok tt, h')
    ∧ h' !! OptimizationConfig.excluded_precisions (NeuralChatConfig.optimize_config s2)
      = Some (ListObj (items ++ [x])).
Proof.
  intros Hfc1 Hfc2 Hoc1 Hoc2 Hl. unfold NeuralChatConfig.__init__, bind.
  destruct (NeuralChatConfig.a_finetune_config a1) as [fc1|]; [|done].
  destruct (NeuralChatConfig.a_finetune_config a2) as [fc2|]; [|done].
  rewrite Hoc1, Hoc2. eexists _, _, _.
  split; [reflexivity|]. split; [reflexivity|]. simpl. split.
  - by apply list_append_spec.
  - apply list_lookup_insert_eq. by eapply lookup_lt_Some.
Qed.

Lemma configs_share_excluded_precisions_witness :
  ∃ s1 s2 h',
    NeuralChatConfig.__init__ env_datasets_recent imported_defaults
      (with_finetune_config "cpu" (sample_finetune_config 2))
      (imported_heap ++ [ListObj ["q"; "v"]])
    = (Ok s1, imported_heap ++ [ListObj ["q"; "v"]])
    ∧ NeuralChatConfig.__init__ env_datasets_recent imported_defaults
        (with_finetune_config "hpu" (sample_finetune_config 2))
        (imported_heap ++ [ListObj ["q"; "v"]])
      = (Ok s2, imported_heap ++ [ListObj ["q"; "v"]])
    ∧ list_append
        (OptimizationConfig.excluded_precisions (NeuralChatConfig.optimize_config s1))
        "fp16" (imported_heap ++ [ListObj ["q"; "v"]]) = (Ok tt, h')
    ∧ h' !! OptimizationConfig.excluded_precisions (NeuralChatConfig.optimize_config s2)
      = Some (ListObj ([] ++ ["fp16"])).
Proof.
  refine (configs_share_excluded_precisions env_datasets_recent imported_defaults
            (with_finetune_config "cpu" (sample_finetune_config 2))
            (with_finetune_config "hpu" (sample_finetune_config 2))
            (imported_heap ++ [ListObj ["q"; "v"]]) [] "fp16"
            _ _ eq_refl eq_refl eq_refl);
    discriminate.
Defined.

(** ** More on [BaseModel] *)

Lemma bind_no_arguments callee (params : list BaseModel.parameter) :
  BaseModel.bind_parameters callee params []
  = match BaseModel.required params with
    | [] => Ok (omap BaseModel.par_default params)
    | names => Err (TypeError_missing callee names)
    end.
Proof. by destruct params. Qed.

(** A call without arguments: refused before the body runs when a
    parameter is required, else the body runs on the defaults. *)
Lemma call_no_arguments (m : BaseModel.method) (tr : BaseModel.trace) :
  BaseModel.call m [] tr
  = match BaseModel.required (BaseModel.m_params m) with
    | [] => (BaseModel.m_body m (omap BaseModel.par_default (BaseModel.m_params m)),
             tr ++ [default_call_event m])
    | names => (Err (TypeError_missing (BaseModel.m_name m) names), tr)
    end.
Proof.
  unfold BaseModel.call, bind, lift. rewrite bind_no_arguments.
  by destruct (BaseModel.required (BaseModel.m_params m)).
Qed.


Lemma unpack2_err (v : BaseModel.value) :
  (∀ a b, v ≠ BaseModel.VTuple [a; b]) →
  ∃ e, BaseModel.unpack2 v = Err e
       ∧ (e = TypeError_unpack ∨ ∃ n, n ≠ 2 ∧ e = ValueError_unpack 2 n).
Proof.
  intros Hv. destruct v as [| |[|x [|y [|z items]]]]; simpl.
  - eexists. split; [done|]. by left.
  - eexists. split; [done|]. by left.
  - eexists. split; [done|]. right. by exists 0.
  - eexists. split; [done|]. right. by exists 1.
  - by destruct (Hv x y).
  - eexists. split; [done|]. right. exists (S (S (S (length items)))). split; [lia|done].
Qed.

Lemma abstract_methods_nil_iff (c : BaseModel.subclass) :
  BaseModel.abstract_methods c = []
  ↔ is_Some (BaseModel.init_model c)
    ∧ is_Some (BaseModel.predict c)
    ∧ is_Some (BaseModel.predict_stream c).
Proof.
  unfold BaseModel.abstract_methods.
  destruct (BaseModel.init_model c), (BaseModel.predict c),
    (BaseModel.predict_stream c); simpl; split; try done;
    intros (H1 & H2 & H3); by (inversion H1 || inversion H2 || inversion H3).
Qed.

(** The inherited [__init__], for a subclass with the three methods. *)
Lemma new_of_concrete (c : BaseModel.subclass) (m : BaseModel.method)
    (tr : BaseModel.trace) :
  BaseModel.init_model c = Some m →
  is_Some (BaseModel.predict c) →
  is_Some (BaseModel.predict_stream c) →
  BaseModel.new c tr
  = match BaseModel.required (BaseModel.m_params m) with
    | [] =>
        match BaseModel.m_body m (omap BaseModel.par_default (BaseModel.m_params m)) with
        | Ok v =>
            match BaseModel.unpack2 v with
            | Ok p => (Ok {| BaseModel.class := c;
                             BaseModel.model := p.1;
                             BaseModel.tokenizer := p.2 |},
                       tr ++ [default_call_event m])
            | Err e => (Err e, tr ++ [default_call_event m])
            end
        | Err e => (Err e, tr ++ [default_call_event m])
        end
    | names => (Err (TypeError_missing (BaseModel.m_name m) names), tr)
    end.
Proof.
  intros Hinit Hp Hps. unfold BaseModel.new.
  rewrite (proj2 (abstract_methods_nil_iff c)) by (rewrite Hinit; eauto).
  unfold BaseModel.__init__, bind. rewrite Hinit. simpl.
  rewrite call_no_arguments.
  destruct (BaseModel.required (BaseModel.m_params m)); [|done].
  destruct (BaseModel.m_body m _) as [v|e]; [|done].
  unfold lift. by destruct (BaseModel.unpack2 v).
Qed.

(** X12. A subclass that leaves one of [init_model], [predict] and
    [predict_stream] abstract is not instantiated: the construction
    raises the [TypeError] that lists the methods left abstract, and
    [init_model] is not called. *)
Theorem abstract_subclass_not_instantiated (c : BaseModel.subclass)
    (tr : BaseModel.trace) :
  BaseModel.init_model c = None
  ∨ BaseModel.predict c = None
  ∨ BaseModel.predict_stream c = None →
  BaseModel.new c tr = (Err (TypeError_abstract (BaseModel.abstract_methods c)), tr)
  ∧ BaseModel.abstract_methods c ≠ []
  ∧ ("init_model" ∈ BaseModel.abstract_methods c ↔ BaseModel.init_model c = None)
  ∧ ("predict" ∈ BaseModel.abstract_methods c ↔ BaseModel.predict c = None)
  ∧ ("predict_stream" ∈ BaseModel.abstract_methods c
     ↔ BaseModel.predict_stream c = None).
Proof.
  intros Habs. unfold BaseModel.new, BaseModel.abstract_methods.
  destruct (BaseModel.init_model c), (BaseModel.predict c),
    (BaseModel.predict_stream c); simpl;
    try (destruct Habs as [? | [? | ?]]; discriminate);
    (split; [reflexivity|]); (split; [discriminate|]);
    repeat split; intros H; try done;
    repeat (apply elem_of_cons in H as [H|H]; [discriminate|]);
    try (by apply elem_of_nil in H);
    by_evaluation.
Qed.

Lemma abstract_subclass_not_instantiated_witness :
  BaseModel.new
    {| BaseModel.init_model := BaseModel.init_model (lenient_subclass BaseModel.VNone BaseModel.VNone);
       BaseModel.predict_stream := None;
       BaseModel.predict := None |} []
  = (Err (TypeError_abstract ["predict"; "predict_stream"]), []).
Proof.
  apply (abstract_subclass_not_instantiated
           {| BaseModel.init_model :=
                BaseModel.init_model (lenient_subclass BaseModel.VNone BaseModel.VNone);
              BaseModel.predict_stream := None;
              BaseModel.predict := None |} []).
  right. left. reflexivity.
Defined.


(** X14. Whatever the subclass, a construction only adds to the trace
    of calls, and adds at most one call, of the subclass's
    [init_model] with its parameters at their defaults; a construction
    that returns an instance has made exactly that one call. *)
Theorem init_model_runs_at_most_once (c : BaseModel.subclass) (tr : BaseModel.trace) :
  ∃ evs,
    (BaseModel.new c tr).2 = tr ++ evs
    ∧ (length evs ≤ 1)%nat
    ∧ Forall (λ ev, ∃ m, BaseModel.init_model c = Some m ∧ ev = default_call_event m) evs
    ∧ ∀ inst, (BaseModel.new c tr).1 = Ok inst → length evs = 1.
Proof.
  destruct (BaseModel.abstract_methods c) as [|name names] eqn:Habs.
  - apply abstract_methods_nil_iff in Habs as ([m Hinit] & Hp & Hps).
    rewrite (new_of_concrete c m tr Hinit Hp Hps).
    assert (Forall (λ ev, ∃ m', Some m = Some m' ∧ ev = default_call_event m')
              [default_call_event m]) as Hone
      by (constructor; [by exists m | constructor]).
    rewrite Hinit.
    destruct (BaseModel.required (BaseModel.m_params m)).
    + destruct (BaseModel.m_body m _) as [v|e];
        [destruct (BaseModel.unpack2 v)|]; by exists [default_call_event m].
    + exists []. simpl. rewrite app_nil_r. repeat split; [lia|constructor|done].
  - exists []. unfold BaseModel.new. rewrite Habs. simpl. rewrite app_nil_r.
    repeat split; [lia|constructor|done].
Qed.

(** X15. A failure inside [init_model] is the failure of the
    construction: when the body of [init_model] raises, the
    construction raises the same exception, after the one call, and no
    instance is made. *)
Theorem init_model_failure_propagates (c : BaseModel.subclass) (m : BaseModel.method)
    (tr : BaseModel.trace) (e : exn) :
  BaseModel.init_model c = Some m →
  is_Some (BaseModel.predict c) →
  is_Some (BaseModel.predict_stream c) →
  BaseModel.required (BaseModel.m_params m) = [] →
  BaseModel.m_body m (omap BaseModel.par_default (BaseModel.m_params m)) = Err e →
  BaseModel.new c tr = (Err e, tr ++ [default_call_event m]).
Proof.
  intros Hinit Hp Hps Hreq Hbody.
  by rewrite (new_of_concrete c m tr Hinit Hp Hps), Hreq, Hbody.
Qed.

Lemma init_model_failure_propagates_witness :
  BaseModel.new
    (nullary_subclass (Err (Propagated "from_pretrained" (ForeignExn "OSError" "no such model"))))
    []
  = (Err (Propagated "from_pretrained" (ForeignExn "OSError" "no such model")),
     [] ++ [{| BaseModel.ev_method := "init_model"; BaseModel.ev_args := [] |}]).
Proof.
  refine (init_model_failure_propagates
            (nullary_subclass
               (Err (Propagated "from_pretrained" (ForeignExn "OSError" "no such model"))))
            _ [] _ eq_refl _ _ eq_refl eq_refl);
    eexists; reflexivity.
Defined.


